(** * MingLog icon scripts: a shallow embedding and its properties

    Two Python scripts are embedded here:

    - [apps/tauri-desktop/src-tauri/create_ico.py], which packs a 16x16
      ICO file by hand with [struct.pack] (module [CreateIco]);
    - [apps/desktop/assets/create-icons.py], which draws icons with PIL and
      saves them as PNG and ICO (module [CreateIcons]).

    Python values are modelled as follows: [int] is [Z], [bytes] is
    [list byte], [str] is [string] (UTF-8 encoded), an exception is a class
    with a message, and a statement that may raise is a computation in an
    error monad ([outcome]) or, when it also touches the file system or
    the terminal, in a state-and-error monad over [world] ([M]). *)

From Stdlib Require Import ZArith Strings.Byte Strings.Ascii.
From Stdlib Require Import Floats.SpecFloat.
From stdpp Require Import gmap strings list pretty.

Local Open Scope Z_scope.

(** ** Python exceptions *)

Module Py.

(** The part of the built-in exception hierarchy the scripts can meet;
    [StructError] is [struct.error]. [SystemExit], [KeyboardInterrupt]
    and [GeneratorExit] derive from [BaseException] only, so that
    [except Exception] lets them through. *)
Inductive exn_class :=
  | BaseException | SystemExit | KeyboardInterrupt | GeneratorExit
  | Exception
  | ImportError | ModuleNotFoundError
  | OSError | FileNotFoundError | PermissionError
  | LookupError | IndexError | KeyError
  | ArithmeticError | OverflowError
  | ValueError | UnicodeError | UnicodeEncodeError
  | TypeError | MemoryError
  | StructError.

#[global] Instance exn_class_eq_dec : EqDecision exn_class.
Proof. solve_decision. Defined.

(** The direct base class, [None] for [BaseException], the root. *)
Definition base (c : exn_class) : option exn_class :=
  match c with
  | BaseException => None
  | SystemExit | KeyboardInterrupt | GeneratorExit | Exception => Some BaseException
  | ImportError | OSError | LookupError | ArithmeticError
  | ValueError | TypeError | MemoryError | StructError => Some Exception
  | ModuleNotFoundError => Some ImportError
  | FileNotFoundError | PermissionError => Some OSError
  | IndexError | KeyError => Some LookupError
  | OverflowError => Some ArithmeticError
  | UnicodeError => Some ValueError
  | UnicodeEncodeError => Some UnicodeError
  end.

(** [issubclass c d]: [d] is reached from [c] by following [base]. The
    hierarchy above is four levels deep below its root. *)
Fixpoint issubclass_fuel (fuel : nat) (c d : exn_class) : bool :=
  if decide (c = d) then true
  else match fuel with
       | O => false
       | S fuel' => match base c with
                    | Some b => issubclass_fuel fuel' b d
                    | None => false
                    end
       end.

Definition issubclass : exn_class → exn_class → bool := issubclass_fuel 5.

(** A raised exception: its class and [str(e)]. *)
Record exn := mk_exn { exn_cls : exn_class; exn_str : string }.

#[global] Instance exn_eq_dec : EqDecision exn.
Proof. solve_decision. Defined.

Definition isinstance (e : exn) (c : exn_class) : bool := issubclass (exn_cls e) c.

(** *** Pure code that may raise *)

Inductive outcome (A : Type) :=
  | Ret (a : A)
  | Raise (e : exn).
Arguments Ret {A} a.
Arguments Raise {A} e.

#[global] Instance outcome_ret : MRet outcome := @Ret.
#[global] Instance outcome_bind : MBind outcome := λ A B f m,
  match m with
  | Ret a => f a
  | Raise e => Raise e
  end.

(** [try: body / except <classes>: handler]; the [catches] predicate is
    the class test of the [except] clause. *)
Definition try_pure {A} (body : outcome A) (catches : exn → bool)
    (handler : exn → outcome A) : outcome A :=
  match body with
  | Ret a => Ret a
  | Raise e => if catches e then handler e else Raise e
  end.

(** *** The world: files, terminal, installed packages *)

Record world := mk_world {
  files : gmap string (list byte);   (* path -> content *)
  denied : gmap string exn;          (* paths that cannot be opened for writing, and why *)
  modules : gset string;             (* importable top-level modules *)
  stdout : list string;              (* lines printed so far *)
  written : list (string * list byte) (* every [write] call so far: path, data *)
}.

Definition set_files (f : gmap string (list byte) → gmap string (list byte)) (w : world) : world :=
  mk_world (f (files w)) (denied w) (modules w) (stdout w) (written w).
Definition set_stdout (f : list string → list string) (w : world) : world :=
  mk_world (files w) (denied w) (modules w) (f (stdout w)) (written w).
Definition set_written (f : list (string * list byte) → list (string * list byte)) (w : world) : world :=
  mk_world (files w) (denied w) (modules w) (stdout w) (f (written w)).

(** Code with effects: the world is threaded through, and is kept as it is
    at the point of a raise. *)
Definition M (A : Type) : Type := world → outcome A * world.

#[global] Instance M_ret : MRet M := λ A a w, (Ret a, w).
#[global] Instance M_bind : MBind M := λ A B f m w,
  match m w with
  | (Ret a, w') => f a w'
  | (Raise e, w') => (Raise e, w')
  end.

Definition lift {A} (o : outcome A) : M A := λ w, (o, w).

Definition try_except {A} (body : M A) (catches : exn → bool)
    (handler : exn → M A) : M A := λ w,
  match body w with
  | (Ret a, w') => (Ret a, w')
  | (Raise e, w') => if catches e then handler e w' else (Raise e, w')
  end.

(** *** The terminal *)

(** The encoding of [sys.stdout] (with the default, strict, error
    handler). [Unicode] stands for the encodings that encode every
    character (UTF-8, UTF-16, UTF-32, GB18030, ...), and for a stream
    whose error handler replaces what it cannot encode. [CodePage r] is a
    legacy code page (ascii, cp1252, gbk, ...): [r] tells which code
    points it can encode; none of Python's code pages encodes a character
    of plane 1 (U+10000 to U+1FFFF), where the emoji U+1F3A8, U+1F4A1 and
    U+1F4DD of the scripts sit. The encoding is fixed for the run. *)
Inductive encoding :=
  | Unicode
  | CodePage (repertoire : N → bool).

Class Terminal := { stdout_encoding : encoding }.

(** The continuation bits of a UTF-8 byte. *)
Definition cont (c : ascii) : N := N_of_ascii c `mod` 64.

(** The code points of a string, which holds UTF-8; a byte that does not
    start a well-formed sequence counts as U+FFFD. *)
Fixpoint code_points (s : string) : list N :=
  match s with
  | EmptyString => []
  | String c s1 =>
      let b := N_of_ascii c in
      if (b <? 128)%N then b :: code_points s1
      else if (b <? 192)%N then 65533%N :: code_points s1
      else if (b <? 224)%N then
        match s1 with
        | String c1 s2 => ((b - 192) * 64 + cont c1)%N :: code_points s2
        | _ => [65533%N]
        end
      else if (b <? 240)%N then
        match s1 with
        | String c1 (String c2 s3) =>
            ((b - 224) * 4096 + cont c1 * 64 + cont c2)%N :: code_points s3
        | _ => [65533%N]
        end
      else
        match s1 with
        | String c1 (String c2 (String c3 s4)) =>
            ((b - 240) * 262144 + cont c1 * 4096 + cont c2 * 64 + cont c3)%N
            :: code_points s4
        | _ => [65533%N]
        end
  end.

Definition in_plane_1 (cp : N) : bool := ((65536 <=? cp) && (cp <=? 131071))%N.

Definition can_encode (enc : encoding) (s : string) : bool :=
  match enc with
  | Unicode => true
  | CodePage r => forallb (λ cp, negb (in_plane_1 cp) && r cp) (code_points s)
  end.

(** What [print] raises when the encoding cannot encode the text. *)
Definition encode_error : exn :=
  mk_exn UnicodeEncodeError "codec can't encode character".

(** [print(s)]: the text is encoded as a whole, so a line that cannot be
    encoded raises before anything of it is written. The stream itself is
    taken to be open and writable. *)
Definition print `{Terminal} (s : string) : M unit := λ w,
  if can_encode stdout_encoding s
  then (Ret tt, set_stdout (λ out, out ++ [s]) w)
  else (Raise encode_error, w).

(** [import name] / [from name import ...] *)
Definition import (name : string) : M unit := λ w,
  if decide (name ∈ modules w) then (Ret tt, w)
  else (Raise (mk_exn ModuleNotFoundError ("No module named '" +:+ name +:+ "'")), w).

(** [open(path, 'wb')]: the file is created or truncated; the handle is
    the path. *)
Definition open_wb (path : string) : M string := λ w,
  match denied w !! path with
  | Some e => (Raise e, w)
  | None => (Ret path, set_files (insert path []) w)
  end.

(** [f.write(data)] on a handle from [open_wb]: appends, returns the
    number of bytes written. *)
Definition write (f : string) (data : list byte) : M Z := λ w,
  (Ret (Z.of_nat (length data)),
   set_written (λ l, l ++ [(f, data)])
     (set_files (<[f := default [] (files w !! f) ++ data]>) w)).

(** [with open(path, 'wb') as f: body]; closing the file has no effect
    in this model, so leaving the block, normally or not, changes nothing. *)
Definition with_open_wb {A} (path : string) (body : string → M A) : M A :=
  f ← open_wb path; body f.

(** [for x in l: body] *)
Fixpoint for_each {A} (l : list A) (body : A → M unit) : M unit :=
  match l with
  | [] => mret tt
  | x :: l' => body x ≫= λ _, for_each l' body
  end.

(** [b * n] on bytes (and lists): [n] copies, none when [n <= 0]. *)
Definition bytes_mul (b : list byte) (n : Z) : list byte :=
  mjoin (replicate (Z.to_nat n) b).

End Py.

(** ** [struct.pack] for little-endian integer formats *)

Module Struct.
Import Py.

(** Size in bytes and signedness of an integer format character in
    standard ([<]) mode. *)
Definition code_of (c : ascii) : option (nat * bool) :=
  if Ascii.eqb c "b"%char then Some (1%nat, true)
  else if Ascii.eqb c "B"%char then Some (1%nat, false)
  else if Ascii.eqb c "h"%char then Some (2%nat, true)
  else if Ascii.eqb c "H"%char then Some (2%nat, false)
  else if Ascii.eqb c "i"%char then Some (4%nat, true)
  else if Ascii.eqb c "I"%char then Some (4%nat, false)
  else if Ascii.eqb c "l"%char then Some (4%nat, true)
  else if Ascii.eqb c "L"%char then Some (4%nat, false)
  else if Ascii.eqb c "q"%char then Some (8%nat, true)
  else if Ascii.eqb c "Q"%char then Some (8%nat, false)
  else None.

Definition error (msg : string) : exn := mk_exn StructError msg.

Fixpoint parse_codes (s : string) : outcome (list (ascii * nat * bool)) :=
  match s with
  | EmptyString => Ret []
  | String c s' =>
      match code_of c with
      | Some (n, sg) => cs ← parse_codes s'; Ret ((c, n, sg) :: cs)
      | None => Raise (error "bad char in struct format")
      end
  end.

(** Only formats that start with [<] (little-endian, standard sizes, no
    padding) and then list integer codes, one per value, are modelled:
    these are the formats of the script. *)
Definition parse_format (fmt : string) : outcome (list (ascii * nat * bool)) :=
  match fmt with
  | String "<"%char s => parse_codes s
  | _ => Raise (error "bad char in struct format")
  end.

Definition calcsize_codes (cs : list (ascii * nat * bool)) : nat :=
  foldr (λ c acc, (c.1.2 + acc)%nat) 0%nat cs.

Definition byte_of_Z (z : Z) : byte :=
  default x00 (Byte.of_N (Z.to_N (Z.land z 255))).

(** [n] bytes of [v], least significant first (two's complement for a
    negative [v]). *)
Fixpoint le_bytes (n : nat) (v : Z) : list byte :=
  match n with
  | O => []
  | S n' => byte_of_Z v :: le_bytes n' (Z.shiftr v 8)
  end.

Definition in_range (n : nat) (signed : bool) (v : Z) : bool :=
  let bits := 8 * Z.of_nat n in
  if signed then (- 2 ^ (bits - 1) <=? v) && (v <? 2 ^ (bits - 1))
  else (0 <=? v) && (v <? 2 ^ bits).

(** How the range message names the format: by C type for one and two
    bytes, by the format character otherwise. *)
Definition code_name (c : ascii * nat * bool) : string :=
  match c.1.2, c.2 with
  | 1%nat, true => "byte"
  | 1%nat, false => "ubyte"
  | 2%nat, true => "short"
  | 2%nat, false => "ushort"
  | _, _ => "'" +:+ String c.1.1 EmptyString +:+ "'"
  end.

(** The message of the [struct.error] for a value that does not fit (as
    CPython 3.11 words it where a C long has 64 bits): 8-byte fields, and
    values that do not even convert to the C integer the field is checked
    with (a signed long, or an unsigned long for [I] and [L]), only say
    [argument out of range]; otherwise the limits are given. *)
Definition range_message (c : ascii * nat * bool) (v : Z) : string :=
  let converts :=
    if (negb c.2 && (c.1.2 =? 4)%nat)%bool
    then (0 <=? v) && (v <? 2 ^ 64)
    else (- 2 ^ 63 <=? v) && (v <? 2 ^ 63) in
  if ((c.1.2 =? 8)%nat || negb converts)%bool then "argument out of range"
  else code_name c +:+ " format requires "
       +:+ pretty (if c.2 then - 2 ^ (8 * Z.of_nat c.1.2 - 1) else 0)
       +:+ " <= number <= "
       +:+ pretty (if c.2 then 2 ^ (8 * Z.of_nat c.1.2 - 1) - 1
                   else 2 ^ (8 * Z.of_nat c.1.2) - 1).

Definition pack_item (c : ascii * nat * bool) (v : Z) : outcome (list byte) :=
  if in_range c.1.2 c.2 v then Ret (le_bytes c.1.2 v)
  else Raise (error (range_message c v)).

Fixpoint pack_items (cs : list (ascii * nat * bool)) (vs : list Z) : outcome (list byte) :=
  match cs, vs with
  | c :: cs', v :: vs' =>
      b ← pack_item c v; bs ← pack_items cs' vs'; Ret (b ++ bs)
  | _, _ => Ret []
  end.

(** [struct.pack(fmt, *args)]: the format is compiled first, then the
    number of values is compared with the number of fields, then the values
    are converted one by one. *)
Definition pack (fmt : string) (args : list Z) : outcome (list byte) :=
  cs ← parse_format fmt;
  if decide (length args = length cs) then pack_items cs args
  else Raise (error ("pack expected " +:+ pretty (length cs)
                     +:+ " items for packing (got " +:+ pretty (length args) +:+ ")")).

(** Reading a little-endian unsigned field back. *)
Fixpoint le_value (bs : list byte) : Z :=
  match bs with
  | [] => 0
  | b :: bs' => Z.of_N (Byte.to_N b) + 256 * le_value bs'
  end.

(** [data[off : off + n]] read as an unsigned little-endian integer. *)
Definition field (off n : nat) (data : list byte) : Z :=
  le_value (take n (drop off data)).

End Struct.

(** ** [create_ico.py] *)

Module CreateIco.
Import Py Struct.

(** The five blocks of [create_simple_ico], named as its local variables.
    The three packed blocks may raise; the two literals cannot. *)

(* struct.pack('<HHH', 0, 1, 1) *)
Definition ico_header : outcome (list byte) :=
  pack "<HHH" [0; 1; 1].

(* struct.pack('<BBBBHHII', 16, 16, 0, 0, 1, 32, 40 + 16*16*4, 22) *)
Definition ico_dir_args : list Z :=
  [16; 16; 0; 0; 1; 32; 40 + 16 * 16 * 4; 22].
Definition ico_dir : outcome (list byte) :=
  pack "<BBBBHHII" ico_dir_args.

(* struct.pack('<IIIHHIIIIIII', 40, 16, 32, 1, 32, 0, 0, 0, 0, 0, 0) *)
Definition bmp_header_fmt : string := "<IIIHHIIIIIII".
Definition bmp_header_args : list Z :=
  [40; 16; 32; 1; 32; 0; 0; 0; 0; 0; 0].
Definition bmp_header : outcome (list byte) :=
  pack bmp_header_fmt bmp_header_args.

(* b'\x80\x80\xFF\xFF' * (16 * 16) *)
Definition pixel_data : list byte :=
  bytes_mul [x80; x80; xff; xff] (16 * 16).

(* b'\x00' * (16 * 2) *)
Definition and_mask : list byte :=
  bytes_mul [x00] (16 * 2).

Definition ico_path : string := "icons/icon.ico".

(** The [with open('icons/icon.ico', 'wb') as f:] block: the five
    [f.write] calls, in order. *)
Definition write_blocks
    (ico_header ico_dir bmp_header pixel_data and_mask : list byte) : M unit :=
  with_open_wb ico_path (λ f,
    _ ← write f ico_header;
    _ ← write f ico_dir;
    _ ← write f bmp_header;
    _ ← write f pixel_data;
    _ ← write f and_mask;
    mret tt).

(** [create_simple_ico()]: the blocks are built in source order, then the
    file is opened and the blocks are written. *)
Definition create_simple_ico : M unit :=
  ico_header ← lift ico_header;
  ico_dir ← lift ico_dir;
  bmp_header ← lift bmp_header;
  write_blocks ico_header ico_dir bmp_header pixel_data and_mask.

(** What [struct.pack] raises for the info header (see
    [CreateIcoFacts.bmp_header_raises]). *)
Definition bmp_header_error : exn :=
  error "pack expected 12 items for packing (got 11)".

(** The [if __name__ == '__main__':] block. *)
Definition script `{Terminal} : M unit :=
  _ ← create_simple_ico;
  print "Created simple icon.ico".

(** What a call emitted: the data of the [write] calls it added to the
    world, in order. *)
Definition emitted {A} (m : M A) (w : world) : list byte :=
  mjoin (snd <$> drop (length (written w)) (written (m w).2)).

End CreateIco.

(** ** [create-icons.py] *)

Module CreateIcons.
Import Py.

(** *** [int * float] and [int(float)] on binary64 *)

(** A Python [float] is an IEEE 754 double: 53 bits of precision,
    exponents below 1024. *)
Definition float : Type := spec_float.
Definition prec : Z := 53.
Definition emax : Z := 1024.

(** [float(n)]: the nearest double, [OverflowError] beyond the range. *)
Definition py_float (n : Z) : outcome float :=
  match binary_normalize prec emax n 0 false with
  | S754_infinity _ =>
      Raise (mk_exn OverflowError "int too large to convert to float")
  | f => Ret f
  end.

(** The float literal written [num / den] in decimal (0.45 is
    [float_lit 45 100]): the double nearest to that fraction. *)
Definition float_lit (num den : Z) : float :=
  SFdiv prec emax (binary_normalize prec emax num 0 false)
                  (binary_normalize prec emax den 0 false).

(** [int(x)]: truncation towards zero. *)
Definition py_int (x : float) : outcome Z :=
  match x with
  | S754_zero _ => Ret 0
  | S754_finite s m e => Ret ((if s then -1 else 1) * Z.shiftl (Z.pos m) e)
  | S754_infinity _ =>
      Raise (mk_exn OverflowError "cannot convert float infinity to integer")
  | S754_nan => Raise (mk_exn ValueError "cannot convert float NaN to integer")
  end.

(** [int(n * x)] for an int [n] and a float [x]. *)
Definition int_times (n : Z) (x : float) : outcome Z :=
  f ← py_float n; py_int (SFmul prec emax f x).

(** *** [os.path.join] (POSIX flavour, two arguments) *)

Fixpoint ends_with_slash (s : string) : bool :=
  match s with
  | EmptyString => false
  | String c EmptyString => Ascii.eqb c "/"%char
  | String _ s' => ends_with_slash s'
  end.

(* if b.startswith('/'): b
   elif not a or a.endswith('/'): a + b
   else: a + '/' + b *)
Definition path_join (a b : string) : string :=
  if String.prefix "/" b then b
  else if bool_decide (a = EmptyString) || ends_with_slash a then a +:+ b
  else a +:+ "/" +:+ b.

(** *** The PIL calls of the script *)

Definition rgba : Type := Z * Z * Z * Z.

(** The drawing library, as far as the script uses it. A drawing call
    takes the image it draws on and returns the image drawn on
    ([ImageDraw.Draw(img)] draws in place); every call may raise. Only
    [save] touches the world. *)
Class PIL := {
  image : Type;
  font : Type;
  (* Image.new(mode, size, color) *)
  Image_new : string → Z * Z → rgba → outcome image;
  (* ImageDraw.Draw(img) *)
  ImageDraw_Draw : image → outcome unit;
  (* draw.ellipse(xy, fill=None, outline=None, width=1) *)
  draw_ellipse : image → list Z → option rgba → option rgba → Z → outcome image;
  (* ImageFont.truetype(name, size) *)
  ImageFont_truetype : string → Z → outcome font;
  (* ImageFont.load_default() *)
  ImageFont_load_default : outcome font;
  (* draw.textbbox(xy, text, font=font) *)
  draw_textbbox : image → Z * Z → string → font → outcome (Z * Z * Z * Z);
  (* draw.text(xy, text, fill=fill, font=font) *)
  draw_text : image → Z * Z → string → rgba → font → outcome image;
  (* img.save(path, format, sizes=sizes) *)
  Image_save : image → string → string → option (list (Z * Z)) → M unit
}.

(** [for x in l: s = body(s, x)] in pure code. *)
Fixpoint for_fold {A S} (l : list A) (s : S) (body : S → A → outcome S) : outcome S :=
  match l with
  | [] => Ret s
  | x :: l' => s' ← body s x; for_fold l' s' body
  end.

(** [l[i]] *)
Definition getitem {A} (l : list A) (i : nat) : outcome A :=
  match l !! i with
  | Some x => Ret x
  | None => Raise (mk_exn IndexError "list index out of range")
  end.

Section Script.
Context {pil : PIL} {term : Terminal}.

(** [os.path.dirname(os.path.abspath(__file__))] *)
Variable assets_dir : string.

Definition create_icon (size : Z) : outcome image :=
  img ← Image_new "RGBA" (size, size) (0, 0, 0, 0);
  _ ← ImageDraw_Draw img;
  let center := size `div` 2 in
  radius ← int_times size (float_lit 45 100);
  img ← draw_ellipse img
          [center - radius; center - radius; center + radius; center + radius]
          (Some (102, 126, 234, 255)) None 1;
  inner_radius ← int_times radius (float_lit 8 10);
  img ← draw_ellipse img
          [center - inner_radius; center - inner_radius;
           center + inner_radius; center + inner_radius]
          None (Some (255, 255, 255, 180)) (Z.max 1 (size `div` 64));
  font ← try_pure
           (font_size ← int_times size (float_lit 4 10);
            ImageFont_truetype "arial.ttf" font_size)
           (λ _, true)
           (λ _, ImageFont_load_default);
  let text := "M" in
  bbox ← draw_textbbox img (0, 0) text font;
  let '(b0, b1, b2, b3) := bbox in
  let text_width := b2 - b0 in
  let text_height := b3 - b1 in
  let text_x := center - text_width `div` 2 in
  let text_y := center - text_height `div` 2 in
  img ← draw_text img (text_x, text_y) text (255, 255, 255, 255) font;
  let dot_radius := Z.max 2 (size `div` 32) in
  let positions :=
    [(center, center - radius + dot_radius * 2);
     (center + radius - dot_radius * 2, center);
     (center, center + radius - dot_radius * 2);
     (center - radius + dot_radius * 2, center)] in
  img ← for_fold positions img (λ img '(x, y),
          draw_ellipse img
            [x - dot_radius; y - dot_radius; x + dot_radius; y + dot_radius]
            (Some (255, 255, 255, 200)) None 1);
  Ret img.

Definition sizes : list Z := [16; 24; 32; 48; 64; 128; 256; 512].

Definition png_name (size : Z) : string := "icon-" +:+ pretty size +:+ ".png".

(** The first part of [main]: the PNG icons (up to the ICO [try]). *)
Definition png_export : M unit :=
  _ ← print "🎨 生成 MingLog 图标...";
  _ ← for_each sizes (λ size,
        img ← lift (create_icon size);
        let filename := png_name size in
        let filepath := path_join assets_dir filename in
        _ ← Image_save img filepath "PNG" None;
        print ("✅ 已生成: " +:+ filename));
  main_icon ← lift (create_icon 256);
  _ ← Image_save main_icon (path_join assets_dir "icon.png") "PNG" None;
  print "✅ 已生成: icon.png".

Definition ico_sizes : list (Z * Z) :=
  [(16, 16); (24, 24); (32, 32); (48, 48); (64, 64); (128, 128); (256, 256)].

Definition ico_path : string := path_join assets_dir "icon.ico".

(** The body of the [try] in [main]: ICO export. *)
Definition ico_export : M unit :=
  ico_images ← lift (for_fold ico_sizes [] (λ ico_images '(size, _),
                  img ← create_icon size; Ret (ico_images ++ [img])));
  img0 ← lift (getitem ico_images 0);
  _ ← Image_save img0 ico_path "ICO" (Some ico_sizes);
  print "✅ 已生成: icon.ico".

(** The [except Exception as e:] handler. *)
Definition ico_failed (e : exn) : M unit :=
  print ("⚠️ ICO 生成失败: " +:+ exn_str e).

Definition main : M unit :=
  _ ← png_export;
  _ ← try_except ico_export (λ e, isinstance e Exception) ico_failed;
  _ ← print (String "010"%char "✨ 图标生成完成！");
  print "📝 注意: 这是基础版本的图标，建议使用专业设计工具优化".

(** The module body: everything sits in a [try] whose handler is
    [except ImportError]. [name] is [__name__]. *)
Definition module_body (name : string) : M unit :=
  try_except
    (_ ← import "PIL";
     _ ← import "os";
     if String.eqb name "__main__" then main else mret tt)
    (λ e, isinstance e ImportError)
    (λ _, _ ← print "❌ 需要安装 Pillow 库: pip install Pillow";
          print "💡 或者手动创建图标文件").

(** Running the file as a script. *)
Definition script : M unit := module_body "__main__".

End Script.

End CreateIcons.

(** ** A stand-in drawing library and concrete worlds, for running the
    scripts inside Rocq *)

Module Demo.
Import Py CreateIcons.

(** An image is its width and the number of drawing calls made on it.
    No TrueType font is installed; saving writes two bytes for PNG and
    fails on a full disk, after truncating the file, for any other
    format. *)
Definition demo_pil : PIL := {|
  image := Z * Z;
  font := bool;
  Image_new := λ _ size _, Ret (size.1, 0);
  ImageDraw_Draw := λ _, Ret tt;
  draw_ellipse := λ img _ _ _ _, Ret (img.1, img.2 + 1);
  ImageFont_truetype := λ _ _, Raise (mk_exn OSError "cannot open resource");
  ImageFont_load_default := Ret false;
  draw_textbbox := λ _ xy _ _, Ret (xy.1, xy.2, xy.1 + 6, xy.2 + 11);
  draw_text := λ img _ _ _ _, Ret (img.1, img.2 + 1);
  Image_save := λ img path fmt _,
    f ← open_wb path;
    if String.eqb fmt "PNG"
    then _ ← write f [Struct.byte_of_Z img.1; Struct.byte_of_Z img.2]; mret tt
    else lift (Raise (mk_exn OSError "[Errno 28] No space left on device"))
|}.

Definition assets : string := "/repo/apps/desktop/assets".

(** A UTF-8 terminal and a 7-bit one. *)
Definition utf8 : Terminal := {| stdout_encoding := Unicode |}.

(** A machine with Pillow installed and one without. *)
Definition with_pillow : world :=
  mk_world ∅ ∅ {[ "PIL"; "os" ]} [] [].

End Demo.

(** ** What the scripts are checked against *)

Module Checks.
Import Py CreateIcons.

(** [m] changes no file outside [ps], however it ends. *)
Definition writes_only {A} (ps : list string) (m : M A) : Prop :=
  ∀ w r w', m w = (r, w') → ∀ p, p ∉ ps → files w' !! p = files w !! p.

(** A machine with Pillow and a file that is none of the icons. *)
Definition with_readme : world :=
  mk_world {[ "/repo/README.md" := [x4d] ]} ∅ {[ "PIL"; "os" ]} [] [].

(** The ten files [main] saves: one PNG per size, [icon.png] and
    [icon.ico]. *)
Definition targets (assets_dir : string) : list string :=
  ((λ size, path_join assets_dir (png_name size)) <$> sizes)
  ++ [path_join assets_dir "icon.png"; ico_path assets_dir].

(** [pil] with [ImageFont.truetype] replaced by a loader that hands out
    the default font. *)
Definition default_font_only (pil : PIL) : PIL := {|
  image := @image pil;
  font := @font pil;
  Image_new := @Image_new pil;
  ImageDraw_Draw := @ImageDraw_Draw pil;
  draw_ellipse := @draw_ellipse pil;
  ImageFont_truetype := λ _ _, @ImageFont_load_default pil;
  ImageFont_load_default := @ImageFont_load_default pil;
  draw_textbbox := @draw_textbbox pil;
  draw_text := @draw_text pil;
  Image_save := @Image_save pil
|}.

(** A drawing call as the library receives it. *)
Inductive call :=
  | Ellipse (xy : list Z) (fill outline : option rgba) (width : Z)
  | Text (xy : Z * Z) (text : string) (fill : rgba) (font_size : option Z).

(** A library that records the calls made on an image instead of
    drawing. [limit] is the largest side [Image.new] accepts
    ([MemoryError] beyond it), [truetype] tells whether [arial.ttf] is
    installed, and [save_error fmt] is what [save] raises for the format
    [fmt], if anything; a successful [save] replaces the file by one byte,
    the number of calls recorded. A font is its size, [None] for the default font. *)
Definition recording_pil (limit : Z) (truetype : bool)
    (save_error : string → option exn) : PIL := {|
  image := (Z * Z) * list call;
  font := option Z;
  Image_new := λ _ size _,
    if bool_decide (size.1 ≤ limit) then Ret (size, [])
    else Raise (mk_exn MemoryError "out of memory");
  ImageDraw_Draw := λ _, Ret tt;
  draw_ellipse := λ img xy fill outline width,
    Ret (img.1, img.2 ++ [Ellipse xy fill outline width]);
  ImageFont_truetype := λ _ n,
    if truetype then Ret (Some n)
    else Raise (mk_exn OSError "cannot open resource");
  ImageFont_load_default := Ret None;
  draw_textbbox := λ _ xy text _,
    Ret (xy.1, xy.2, xy.1 + 6 * Z.of_nat (String.length text), xy.2 + 11);
  draw_text := λ img xy text fill f,
    Ret (img.1, img.2 ++ [Text xy text fill f]);
  Image_save := λ img path fmt _,
    match save_error fmt with
    | Some e => lift (Raise e)
    | None => λ w,
        (Ret tt,
         set_files (<[path := [Struct.byte_of_Z (Z.of_nat (length img.2))]]>) w)
    end
|}.

(** A recording library whose PNG plugin cannot be imported. *)
Definition png_plugin_missing : PIL :=
  recording_pil 512 false (λ fmt,
    if String.eqb fmt "PNG"
    then Some (mk_exn ModuleNotFoundError "No module named 'PIL.PngImagePlugin'")
    else None).

(** A recording library whose ICO [save] is interrupted from the
    keyboard. *)
Definition interrupted_ico : PIL :=
  recording_pil 512 false (λ fmt,
    if String.eqb fmt "ICO"
    then Some (mk_exn KeyboardInterrupt EmptyString)
    else None).

(** A recording library that cannot allocate an image wider than 48. *)
Definition small_memory : PIL := recording_pil 48 false (λ _, None).

(** A world where [icons/icon.ico] already exists. *)
Definition with_old_icon : world :=
  mk_world {[ "icons/icon.ico" := [xff; xff; xff] ]} ∅ ∅ [] [].

(** The recorded ellipses of an image all have their corners on the
    pixels of a [size] x [size] canvas. *)
Definition on_canvas (size : Z) (c : call) : bool :=
  match c with
  | Ellipse xy _ _ _ => forallb (λ v, (0 <=? v) && (v <=? size - 1)) xy
  | Text _ _ _ _ => true
  end.

Definition draws_on_canvas (size : Z) : bool :=
  match create_icon (pil := recording_pil size false (λ _, None)) size with
  | Ret img => bool_decide (img.1 = (size, size)) && forallb (on_canvas size) img.2
  | Raise _ => false
  end.

(** [int(n * (num / den))] in floating point agrees with the integer
    quotient. *)
Definition scales_exactly (num den n : Z) : bool :=
  match int_times n (float_lit num den) with
  | Ret z => z =? (num * n) `div` den
  | Raise _ => false
  end.

End Checks.

(** * Properties *)

(** ** [struct.pack] *)

Module StructFacts.
Import Py Struct.

Lemma le_bytes_length (n : nat) (v : Z) : length (le_bytes n v) = n.
Proof. revert v. induction n as [|n IH]; intros v; simpl; [done | by rewrite IH]. Qed.

Lemma byte_of_Z_value (v : Z) : Z.of_N (Byte.to_N (byte_of_Z v)) = v `mod` 256.
Proof.
  unfold byte_of_Z.
  assert (Hland : Z.land v 255 = v `mod` 256)
    by (change 255 with (Z.ones 8); rewrite Z.land_ones by lia; done).
  assert (Hlt : 0 ≤ v `mod` 256 < 256) by (apply Z.mod_pos_bound; lia).
  rewrite Hland.
  destruct (Byte.of_N (Z.to_N (v `mod` 256))) as [b|] eqn:Hb; simpl.
  - apply Byte.to_of_N in Hb. rewrite Hb. lia.
  - apply Byte.of_N_None_iff in Hb. lia.
Qed.

(** A value that fits in [n] bytes is read back from its encoding. *)
Lemma le_value_le_bytes (n : nat) (v : Z) :
  0 ≤ v < 2 ^ (8 * Z.of_nat n) → le_value (le_bytes n v) = v.
Proof.
  revert v. induction n as [|n IH]; intros v Hv; simpl.
  - change (2 ^ (8 * Z.of_nat 0)) with 1 in Hv. lia.
  - rewrite byte_of_Z_value, Z.shiftr_div_pow2 by lia.
    change (2 ^ 8) with 256.
    replace (8 * Z.of_nat (S n)) with (8 + 8 * Z.of_nat n) in Hv by lia.
    rewrite Z.pow_add_r in Hv by lia. change (2 ^ 8) with 256 in Hv.
    rewrite IH.
    + pose proof (Z.div_mod v 256). lia.
    + split; [apply Z.div_pos; lia | apply Z.div_lt_upper_bound; lia].
Qed.

Lemma pack_items_length cs vs b :
  length vs = length cs → pack_items cs vs = Ret b →
  length b = calcsize_codes cs.
Proof.
  revert vs b. induction cs as [|c cs IH]; intros [|v vs] b Hlen Hp;
    simpl in *; try discriminate; try (by inversion Hp).
  unfold mbind, outcome_bind, pack_item in Hp.
  destruct (in_range c.1.2 c.2 v); [|discriminate].
  destruct (pack_items cs vs) as [bs|] eqn:Hbs; [|discriminate].
  inversion Hp; subst. rewrite length_app, le_bytes_length.
  f_equal. apply (IH vs); [lia | done].
Qed.

(** The number of values must be the number of fields: otherwise
    [struct.error] is raised whatever the values are. *)
Lemma pack_count_mismatch fmt cs args :
  parse_format fmt = Ret cs → length args ≠ length cs →
  ∃ msg, pack fmt args = Raise (error msg).
Proof.
  intros Hfmt Hne. unfold pack. rewrite Hfmt. simpl.
  destruct (decide (length args = length cs)); [done | eauto].
Qed.

End StructFacts.

(** ** [create_ico.py] *)

Module CreateIcoFacts.
Import Py Struct CreateIco.

(** *** The info header block is never built *)

(** The format of the info header has twelve fields and takes 44 bytes;
    eleven values are passed. *)
Lemma bmp_header_fields :
  ∃ cs, parse_format bmp_header_fmt = Ret cs ∧ length cs = 12%nat ∧
        calcsize_codes cs = 44%nat ∧ length bmp_header_args = 11%nat.
Proof. eexists. repeat split; reflexivity. Qed.

Lemma bmp_header_raises : bmp_header = Raise bmp_header_error.
Proof. reflexivity. Qed.

(** With the eleven-field format of a 40-byte BITMAPINFOHEADER the same
    values would pack. *)
Remark bmp_header_args_fit_eleven_fields :
  ∃ b, pack "<IIIHHIIIIII" bmp_header_args = Ret b ∧ length b = 40%nat.
Proof. eexists. split; reflexivity. Qed.

(** So every call raises before the file is opened, and leaves the world
    as it found it. *)
Lemma create_simple_ico_raises (w : world) :
  create_simple_ico w = (Raise bmp_header_error, w).
Proof. reflexivity. Qed.

Lemma emitted_nothing (w : world) : emitted create_simple_ico w = [].
Proof.
  unfold emitted. rewrite create_simple_ico_raises. simpl.
  by rewrite drop_all.
Qed.

(** Had the blocks been built, the write phase would lay them out one
    after the other in a freshly truncated file. *)
Lemma write_blocks_layout (h d b p a : list byte) (w : world) :
  denied w !! ico_path = None →
  ∃ w', write_blocks h d b p a w = (Ret tt, w') ∧
        files w' !! ico_path = Some (h ++ d ++ b ++ p ++ a) ∧
        emitted (write_blocks h d b p a) w = h ++ d ++ b ++ p ++ a.
Proof.
  intros Hopen. eexists. split; [|split].
  - unfold write_blocks, with_open_wb, mbind, M_bind, open_wb.
    rewrite Hopen. reflexivity.
  - simpl. rewrite !lookup_insert_eq. simpl. by rewrite <- !app_assoc.
  - unfold emitted, write_blocks, with_open_wb, mbind, M_bind, open_wb.
    rewrite Hopen. simpl. rewrite <- !app_assoc, drop_app_length.
    simpl. by rewrite app_nil_r.
Qed.

Lemma script_raises `{Terminal} (w : world) :
  script w = (Raise bmp_header_error, w).
Proof. reflexivity. Qed.

(** *** The blocks *)

(** C1, as the claim states it, fails: the size field of the directory
    entry is not 40 + 16*16*4 + the length of the AND mask. *)
Lemma dir_size_field_excludes_and_mask :
  ∃ d, ico_dir = Ret d ∧
       field 8 4 d ≠ 40 + 16 * 16 * 4 + Z.of_nat (length and_mask).
Proof. eexists. split; [reflexivity | by vm_compute]. Qed.

(** C1, amended: the directory entry is 16 bytes long and its size field
    (4 bytes at offset 8) holds 40 + 16*16*4 = 1064, the 40 bytes of the
    info header plus the length of the pixel data; the AND mask is not
    counted. *)
Theorem dir_size_field_is_header_plus_pixels :
  ∃ d, ico_dir = Ret d ∧ length d = 16%nat ∧
       field 8 4 d = 40 + 16 * 16 * 4 ∧
       field 8 4 d = 40 + Z.of_nat (length pixel_data) ∧
       field 8 4 d = 1064.
Proof. eexists. repeat split; reflexivity. Qed.

(** C2, as the claim states it, fails: the AND mask is not 16 rows of
    4 bytes, 64 bytes. *)
Lemma and_mask_is_not_64_bytes :
  Z.of_nat (length and_mask) ≠ 16 * 4 ∧ length and_mask ≠ 64%nat.
Proof. split; by vm_compute. Qed.

(** C2, amended: the AND mask is 16 rows of 2 bytes each (16 pixels at
    one bit per pixel, not padded to 4 bytes), all of them zero; its
    length is exactly 32 bytes. *)
Theorem and_mask_is_16_rows_of_2_bytes :
  and_mask = mjoin (replicate 16 (replicate 2 x00)) ∧
  (16 + 7) `div` 8 = 2 ∧
  length and_mask = 32%nat ∧
  Forall (λ b, b = x00) and_mask.
Proof.
  repeat split; try reflexivity.
  unfold and_mask, bytes_mul. apply Forall_forall. intros b Hb.
  apply list_elem_of_join in Hb as (row & Hb & Hrow).
  apply elem_of_replicate in Hrow as [-> _].
  by apply list_elem_of_singleton in Hb.
Qed.

(** C3, as the claim states it, fails: nothing like 1150 bytes is emitted,
    and the blocks do not add up to 1150 either. *)
Lemma emitted_length_is_not_1150 :
  length (emitted create_simple_ico (mk_world ∅ ∅ ∅ [] [])) ≠ 1150%nat ∧
  (6 + 16 + 40 + length pixel_data + length and_mask)%nat ≠ 1150%nat.
Proof. split; by vm_compute. Qed.

(** C3, amended: for the 16x16 image whose pixel data is 0x80 0x80 0xFF
    0xFF repeated 256 times (1024 bytes), the file header is 6 bytes, the
    directory entry 16, the size the info header declares for itself 40,
    and the AND mask 32 (not 64): a layout of 1118 bytes (not 1150). *)
Theorem block_layout_totals_1118 :
  ∃ h d, ico_header = Ret h ∧ ico_dir = Ret d ∧
    length h = 6%nat ∧ length d = 16%nat ∧
    bmp_header_args !! 0%nat = Some 40 ∧
    pixel_data = mjoin (replicate 256 [x80; x80; xff; xff]) ∧
    length pixel_data = 1024%nat ∧
    length and_mask = 32%nat ∧
    (length h + length d + 40 + length pixel_data + length and_mask = 1118)%nat.
Proof. do 2 eexists. repeat split; reflexivity. Qed.

(** C4, as the claim states it, fails: the height passed for the info
    header is 32, and no header block with a height field of 16 is
    built. *)
Lemma header_height_is_not_plain_16 :
  bmp_header_args !! 2%nat ≠ Some 16 ∧
  ¬ ∃ hdr, bmp_header = Ret hdr ∧ field 8 4 hdr = 16.
Proof.
  split; [by vm_compute|]. intros (hdr & Hhdr & _).
  rewrite bmp_header_raises in Hhdr. discriminate.
Qed.

(** C4, amended: the value the encoder passes for the height field of the
    info header (the third field of the format, a 4-byte field at
    offset 8) is the doubled height 2 * 16 = 32. *)
Theorem header_height_value_is_doubled :
  ∃ cs, parse_format bmp_header_fmt = Ret cs ∧
    cs !! 2%nat = Some ("I"%char, 4%nat, false) ∧
    calcsize_codes (take 2 cs) = 8%nat ∧
    bmp_header_args !! 2%nat = Some (2 * 16) ∧
    bmp_header_args !! 2%nat = Some 32.
Proof. eexists. repeat split; reflexivity. Qed.

(** C5, on the code: the file header block is the six bytes
    00 00 01 00 01 00, but no call emits it: the emitted sequence is
    empty, and so are its first six bytes. *)
Theorem file_header_built_but_never_emitted :
  ico_header = Ret [x00; x00; x01; x00; x01; x00] ∧
  ∀ w, take 6 (emitted create_simple_ico w) = [].
Proof. split; [reflexivity|]. intros w. by rewrite emitted_nothing. Qed.

(** C6: the directory entry is built, its offset field (4 bytes at
    offset 12) holds 22, and 22 is the length of the file header (6) plus
    the length of the directory entry (16). *)
Theorem dir_offset_field_is_22 :
  ∃ h d, ico_header = Ret h ∧ ico_dir = Ret d ∧
    field 12 4 d = 22 ∧
    length h = 6%nat ∧ length d = 16%nat ∧
    field 12 4 d = Z.of_nat (length h + length d).
Proof. do 2 eexists. repeat split; reflexivity. Qed.


(** C10, on the code: every call raises [struct.error] when it packs the
    info header, before the file is opened; it changes nothing and emits
    no byte, not 1118, and the script prints nothing. *)
Theorem create_simple_ico_emits_nothing `{Terminal} (w : world) :
  create_simple_ico w = (Raise bmp_header_error, w) ∧
  emitted create_simple_ico w = [] ∧
  length (emitted create_simple_ico w) ≠ 1118%nat ∧
  script w = (Raise bmp_header_error, w).
Proof.
  rewrite emitted_nothing.
  split; [apply create_simple_ico_raises|].
  split; [done|]. split; [done | apply script_raises].
Qed.

End CreateIcoFacts.

(** ** [create-icons.py] *)

Module CreateIconsFacts.
Import Py CreateIcons Checks.


(** *** Paths *)

Lemma app_inj_prefix (p a b : string) : p +:+ a = p +:+ b → a = b.
Proof. induction p as [|c p IH]; simpl; [done|]. intros [= Heq]. by apply IH. Qed.

(** Joining a directory with two relative names gives the same path only
    for the same name. *)
Lemma path_join_relative_inj (d a b : string) :
  String.prefix "/" a = false → String.prefix "/" b = false →
  path_join d a = path_join d b → a = b.
Proof.
  intros Ha Hb. unfold path_join. rewrite Ha, Hb.
  destruct (bool_decide (d = EmptyString) || ends_with_slash d).
  - apply app_inj_prefix.
  - intros Heq. by do 2 apply app_inj_prefix in Heq.
Qed.

Lemma png_name_relative (size : Z) : String.prefix "/" (png_name size) = false.
Proof. reflexivity. Qed.

Lemma png_path_is_not_ico_path (d : string) (size : Z) :
  path_join d (png_name size) ≠ ico_path d.
Proof.
  intros Heq. apply path_join_relative_inj in Heq; [|reflexivity..].
  unfold png_name in Heq. simpl in Heq. discriminate.
Qed.

Lemma icon_png_is_not_ico_path (d : string) :
  path_join d "icon.png" ≠ ico_path d.
Proof.
  intros Heq. apply path_join_relative_inj in Heq; [|reflexivity..].
  discriminate.
Qed.

(** *** Printing *)

Lemma run_bind_ret {A B} (m : M A) (f : A → M B) (w w1 : world) (a : A) :
  m w = (Ret a, w1) → (m ≫= f) w = f a w1.
Proof. intros Hrun. unfold mbind, M_bind. by rewrite Hrun. Qed.

Lemma run_bind_raise {A B} (m : M A) (f : A → M B) (w w1 : world) (e : exn) :
  m w = (Raise e, w1) → (m ≫= f) w = (Raise e, w1).
Proof. intros Hrun. unfold mbind, M_bind. by rewrite Hrun. Qed.

Lemma run_print_ok `{Terminal} (s : string) (w : world) :
  can_encode stdout_encoding s = true →
  print s w = (Ret tt, set_stdout (λ out, out ++ [s]) w).
Proof. intros Hs. unfold print. by rewrite Hs. Qed.

Lemma run_print_fail `{Terminal} (s : string) (w : world) :
  can_encode stdout_encoding s = false → print s w = (Raise encode_error, w).
Proof. intros Hs. unfold print. by rewrite Hs. Qed.

Lemma run_print_unicode `{Terminal} (s : string) (w : world) :
  stdout_encoding = Unicode →
  print s w = (Ret tt, set_stdout (λ out, out ++ [s]) w).
Proof. intros Hu. apply run_print_ok. by rewrite Hu. Qed.

(** The opening line of [main] starts with U+1F3A8, a character of
    plane 1: only an encoding of all of Unicode can encode it. *)
Lemma opening_line_needs_unicode (enc : encoding) :
  can_encode enc "🎨 生成 MingLog 图标..." = true → enc = Unicode.
Proof. destruct enc as [|r]; [done|]. intros Hs. vm_compute in Hs. discriminate. Qed.

(** *** The module-level handler *)





(** *** The ICO handler in [main] *)

(** The stand-in library writes to the path it is given only. *)
Lemma demo_save_writes_its_path_only :
  ∀ img path fmt sz w r w',
    Image_save (PIL := Demo.demo_pil) img path fmt sz w = (r, w') →
    ∀ p, p ≠ path → files w' !! p = files w !! p.
Proof.
  intros img path fmt sz w r w'. simpl.
  unfold mbind, M_bind, open_wb, write, lift.
  destruct (denied w !! path); [by intros [= _ <-]|].
  destruct (String.eqb fmt "PNG"); intros [= _ <-] p Hp; simpl;
    by rewrite ?lookup_insert_ne.
Qed.

(** C9, as the claim states it, fails: an exception that is not an
    [Exception] is not caught. Here the PNG part returns normally, saving
    the ICO file is interrupted from the keyboard, and [main] ends with
    that [KeyboardInterrupt]: no warning is printed and [main] does not
    run to completion. *)
Lemma keyboard_interrupt_in_ico_export_leaves_main :
  let w := Demo.with_pillow in
  let w1 := (png_export (pil := interrupted_ico) (term := Demo.utf8) Demo.assets w).2 in
  let e := mk_exn KeyboardInterrupt EmptyString in
  png_export (pil := interrupted_ico) (term := Demo.utf8) Demo.assets w = (Ret tt, w1) ∧
  ico_export (pil := interrupted_ico) (term := Demo.utf8) Demo.assets w1 = (Raise e, w1) ∧
  main (pil := interrupted_ico) (term := Demo.utf8) Demo.assets w = (Raise e, w1).
Proof. cbn zeta. repeat split; vm_compute; reflexivity. Qed.

Section Main.
Context {pil : PIL} {term : Terminal} (assets_dir : string).

(** What is assumed of the library: saving an image to a path leaves the
    files at all other paths as they are, whether it returns or raises. *)
Hypothesis save_writes_its_path_only :
  ∀ img path fmt sz w r w',
    Image_save img path fmt sz w = (r, w') →
    ∀ p, p ≠ path → files w' !! p = files w !! p.

(** ICO export, however it ends, changes no file but [icon.ico]. *)
Lemma ico_export_writes_ico_only (w w' : world) (r : outcome unit) :
  ico_export assets_dir w = (r, w') →
  ∀ p, p ≠ ico_path assets_dir → files w' !! p = files w !! p.
Proof.
  unfold ico_export, mbind, M_bind, lift.
  destruct (for_fold _ _ _) as [ico_images|e1]; [|by intros [= _ <-]].
  destruct (getitem ico_images 0) as [img0|e2]; [|by intros [= _ <-]].
  destruct (Image_save img0 _ _ _ w) as [[[]|e3] ws] eqn:Hsave.
  - unfold print. destruct (can_encode _ _); intros [= _ <-] p Hp; simpl;
      by apply (save_writes_its_path_only _ _ _ _ _ _ _ Hsave).
  - intros [= _ <-] p Hp.
    by apply (save_writes_its_path_only _ _ _ _ _ _ _ Hsave).
Qed.

(** Once the PNG part has returned, its opening line has been printed, so
    the standard output encodes all of Unicode. *)
Lemma png_export_returned_on_unicode (w w1 : world) :
  png_export assets_dir w = (Ret tt, w1) → stdout_encoding = Unicode.
Proof.
  unfold png_export. intros Hrun.
  destruct (can_encode stdout_encoding "🎨 生成 MingLog 图标...") eqn:Hs.
  - by apply opening_line_needs_unicode.
  - erewrite run_bind_raise in Hrun by by apply run_print_fail. discriminate.
Qed.

(** C9, amended: if the PNG part of [main] has returned (reaching [w1])
    and ICO export then raises [e] (reaching [w2]), two cases arise. If
    [e] is an [Exception], [main] catches it: it prints the warning with
    [str(e)] and its two closing lines, and returns normally. If [e] is
    not an [Exception] ([KeyboardInterrupt], [SystemExit],
    [GeneratorExit]), it is not caught: [main] ends with [e], having
    printed nothing more. In both cases every file other than
    [icon.ico], and so each [icon-<size>.png] and [icon.png], is as the
    PNG part left it. *)
Theorem ico_failure_is_contained (w w1 w2 : world) (e : exn) :
  png_export assets_dir w = (Ret tt, w1) →
  ico_export assets_dir w1 = (Raise e, w2) →
  let w3 := set_stdout (λ out, out ++
              ["⚠️ ICO 生成失败: " +:+ exn_str e;
               String "010"%char "✨ 图标生成完成！";
               "📝 注意: 这是基础版本的图标，建议使用专业设计工具优化"]) w2 in
  main assets_dir w
    = (if isinstance e Exception then (Ret tt, w3) else (Raise e, w2)) ∧
  (∀ p, p ≠ ico_path assets_dir →
        files (main assets_dir w).2 !! p = files w1 !! p) ∧
  (∀ size, files (main assets_dir w).2 !! path_join assets_dir (png_name size)
           = files w1 !! path_join assets_dir (png_name size)) ∧
  files (main assets_dir w).2 !! path_join assets_dir "icon.png"
    = files w1 !! path_join assets_dir "icon.png".
Proof.
  intros Hpng Hico w3.
  pose proof (png_export_returned_on_unicode _ _ Hpng) as Hu.
  assert (Hmain : main assets_dir w
            = (if isinstance e Exception then (Ret tt, w3) else (Raise e, w2))).
  { unfold main. erewrite run_bind_ret by exact Hpng.
    destruct (isinstance e Exception) eqn:He.
    - erewrite run_bind_ret
        by (unfold try_except, ico_failed; rewrite Hico, He;
            by apply run_print_unicode).
      erewrite run_bind_ret by by apply run_print_unicode.
      rewrite run_print_unicode by done.
      subst w3. unfold set_stdout. simpl. by rewrite <- !app_assoc.
    - by erewrite run_bind_raise by (unfold try_except; by rewrite Hico, He). }
  assert (Hframe : ∀ p, p ≠ ico_path assets_dir →
            files (main assets_dir w).2 !! p = files w1 !! p).
  { intros p Hp. rewrite Hmain.
    replace (files (if isinstance e Exception then (Ret tt, w3) else (Raise e, w2)).2)
      with (files w2) by by destruct (isinstance e Exception).
    apply (ico_export_writes_ico_only _ _ _ Hico p Hp). }
  split; [exact Hmain|]. split; [exact Hframe|]. split.
  - intros size. apply Hframe, png_path_is_not_ico_path.
  - apply Hframe, icon_png_is_not_ico_path.
Qed.

End Main.

Lemma ico_failure_is_contained_witness :
  let w := Demo.with_pillow in
  let w1 := (png_export (pil := Demo.demo_pil) (term := Demo.utf8) Demo.assets w).2 in
  let w2 := (ico_export (pil := Demo.demo_pil) (term := Demo.utf8) Demo.assets w1).2 in
  let e := mk_exn OSError "[Errno 28] No space left on device" in
  let w3 := set_stdout (λ out, out ++
              ["⚠️ ICO 生成失败: " +:+ exn_str e;
               String "010"%char "✨ 图标生成完成！";
               "📝 注意: 这是基础版本的图标，建议使用专业设计工具优化"]) w2 in
  let final := (main (pil := Demo.demo_pil) (term := Demo.utf8) Demo.assets w).2 in
  png_export (pil := Demo.demo_pil) (term := Demo.utf8) Demo.assets w = (Ret tt, w1) ∧
  ico_export (pil := Demo.demo_pil) (term := Demo.utf8) Demo.assets w1 = (Raise e, w2) ∧
  main (pil := Demo.demo_pil) (term := Demo.utf8) Demo.assets w = (Ret tt, w3) ∧
  (∀ p, p ≠ ico_path Demo.assets → files final !! p = files w1 !! p) ∧
  (∀ size, files final !! path_join Demo.assets (png_name size)
           = files w1 !! path_join Demo.assets (png_name size)) ∧
  files final !! path_join Demo.assets "icon.png"
    = files w1 !! path_join Demo.assets "icon.png".
Proof.
  intros w w1 w2 e w3 final.
  assert (Hpng : png_export (pil := Demo.demo_pil) (term := Demo.utf8) Demo.assets w
                 = (Ret tt, w1)) by (vm_compute; reflexivity).
  assert (Hico : ico_export (pil := Demo.demo_pil) (term := Demo.utf8) Demo.assets w1
                 = (Raise e, w2)) by (vm_compute; reflexivity).
  split; [exact Hpng|]. split; [exact Hico|].
  exact (ico_failure_is_contained (pil := Demo.demo_pil) (term := Demo.utf8)
           Demo.assets demo_save_writes_its_path_only w w1 w2 e Hpng Hico).
Defined.

End CreateIconsFacts.

(** * Further properties *)

(** ** Which files a computation may change *)

Module Frames.
Import Py Checks.

Lemma writes_only_weaken {A} (ps qs : list string) (m : M A) :
  ps ⊆ qs → writes_only ps m → writes_only qs m.
Proof. intros Hsub Hm w r w' Hrun p Hp. apply (Hm w r w' Hrun). set_solver. Qed.

Lemma writes_only_lift {A} (ps : list string) (o : outcome A) :
  writes_only ps (lift o).
Proof. by intros w r w' [= _ <-]. Qed.

Lemma writes_only_mret {A} (ps : list string) (a : A) :
  writes_only ps (mret a : M A).
Proof. by intros w r w' [= _ <-]. Qed.

Lemma writes_only_print `{Terminal} (ps : list string) (s : string) :
  writes_only ps (print s).
Proof.
  intros w r w'. unfold print.
  by destruct (can_encode stdout_encoding s); intros [= _ <-].
Qed.

Lemma writes_only_import (ps : list string) (name : string) :
  writes_only ps (import name).
Proof.
  intros w r w'. unfold import.
  by destruct (decide (name ∈ modules w)); intros [= _ <-].
Qed.

Lemma writes_only_bind {A B} (ps : list string) (m : M A) (f : A → M B) :
  writes_only ps m → (∀ a, writes_only ps (f a)) → writes_only ps (m ≫= f).
Proof.
  intros Hm Hf w r w'. unfold mbind, M_bind.
  destruct (m w) as [[a|e] w1] eqn:Hrun.
  - intros Hk p Hp. rewrite (Hf a w1 r w' Hk p Hp). by apply (Hm w _ w1 Hrun).
  - intros [= _ <-] p Hp. by apply (Hm w _ w1 Hrun).
Qed.

Lemma writes_only_try_except {A} (ps : list string) (body : M A)
    (catches : exn → bool) (handler : exn → M A) :
  writes_only ps body → (∀ e, writes_only ps (handler e)) →
  writes_only ps (try_except body catches handler).
Proof.
  intros Hb Hh w r w'. unfold try_except.
  destruct (body w) as [[a|e] w1] eqn:Hrun.
  - intros [= _ <-] p Hp. by apply (Hb w _ w1 Hrun).
  - destruct (catches e).
    + intros Hk p Hp. rewrite (Hh e w1 r w' Hk p Hp). by apply (Hb w _ w1 Hrun).
    + intros [= _ <-] p Hp. by apply (Hb w _ w1 Hrun).
Qed.

Lemma writes_only_for_each {A} (ps : list string) (l : list A) (body : A → M unit) :
  (∀ x, x ∈ l → writes_only ps (body x)) → writes_only ps (for_each l body).
Proof.
  induction l as [|x l IH]; intros Hbody; simpl.
  - apply writes_only_mret.
  - apply writes_only_bind.
    + apply Hbody. set_solver.
    + intros _. apply IH. intros y Hy. apply Hbody. set_solver.
Qed.

End Frames.

(** ** More on [create-icons.py] *)

Module CreateIconsMore.
Import Py CreateIcons Checks Frames CreateIconsFacts.

(** *** [create_icon]: the font *)

(** With a loader that raises or hands out the default font, the font
    chosen by the [try] is the default font. *)
Lemma font_is_default (pil : PIL) (size : Z) :
  (∀ n, (∃ e, ImageFont_truetype "arial.ttf" n = Raise e)
        ∨ ImageFont_truetype "arial.ttf" n = ImageFont_load_default) →
  try_pure
    (font_size ← int_times size (float_lit 4 10);
     ImageFont_truetype "arial.ttf" font_size)
    (λ _, true)
    (λ _, ImageFont_load_default)
  = ImageFont_load_default.
Proof.
  intros Hfont. unfold mbind, outcome_bind.
  destruct (int_times size (float_lit 4 10)) as [n|e]; [|done].
  destruct (Hfont n) as [[e ->] | ->]; [done|].
  by destruct ImageFont_load_default.
Qed.

(** X1: when [arial.ttf] cannot be loaded, whatever the loader raises,
    [create_icon] does exactly what it does with a loader that hands out
    the default font: the font error never leaves [create_icon]. *)
Theorem font_failure_falls_back (pil : PIL) (size : Z) :
  (∀ n, ∃ e, ImageFont_truetype "arial.ttf" n = Raise e) →
  create_icon (pil := pil) size = create_icon (pil := default_font_only pil) size.
Proof.
  intros Hfont. unfold create_icon.
  rewrite (font_is_default pil size) by (intros n; left; apply Hfont).
  rewrite (font_is_default (default_font_only pil) size) by (intros n; by right).
  reflexivity.
Qed.

Lemma font_failure_falls_back_witness :
  (∀ n, ∃ e, ImageFont_truetype (PIL := Demo.demo_pil) "arial.ttf" n = Raise e) ∧
  create_icon (pil := Demo.demo_pil) 256
  = create_icon (pil := default_font_only Demo.demo_pil) 256.
Proof.
  assert (Hfont : ∀ n, ∃ e,
            ImageFont_truetype (PIL := Demo.demo_pil) "arial.ttf" n = Raise e)
    by (intros n; eexists; reflexivity).
  split; [exact Hfont|].
  exact (font_failure_falls_back Demo.demo_pil 256 Hfont).
Defined.

(** *** [create_icon]: sizes and positions *)

Lemma in_seqZ_forallb (f : Z → bool) (m len n : Z) :
  forallb f (seqZ m len) = true → m ≤ n < m + len → f n = true.
Proof.
  intros Hall Hn. rewrite forallb_forall in Hall.
  apply Hall, list_elem_of_In, elem_of_seqZ. lia.
Qed.

Lemma scales_exactly_spec (num den n : Z) :
  scales_exactly num den n = true →
  int_times n (float_lit num den) = Ret ((num * n) `div` den).
Proof.
  unfold scales_exactly. destruct (int_times _ _) as [z|e]; [|done].
  intros Heq. apply Z.eqb_eq in Heq. by subst.
Qed.

Lemma scales_exactly_checked :
  forallb (λ n, scales_exactly 45 100 n && scales_exactly 8 10 n
                && scales_exactly 4 10 n) (seqZ 0 4097) = true.
Proof. vm_compute. reflexivity. Qed.

(** X2: for every [n] from 0 to 4096 the floating-point products of
    [create_icon] lose nothing: [int(n * 0.45)], [int(n * 0.8)] and
    [int(n * 0.4)] are the integer quotients of 45 n by 100, 8 n by 10
    and 4 n by 10. *)
Theorem scaled_sizes_are_exact (n : Z) :
  0 ≤ n ≤ 4096 →
  int_times n (float_lit 45 100) = Ret ((45 * n) `div` 100) ∧
  int_times n (float_lit 8 10) = Ret ((8 * n) `div` 10) ∧
  int_times n (float_lit 4 10) = Ret ((4 * n) `div` 10).
Proof.
  intros Hn.
  assert (Hok := in_seqZ_forallb _ 0 4097 n scales_exactly_checked ltac:(lia)).
  simpl in Hok. apply andb_prop in Hok as [Hok H4].
  apply andb_prop in Hok as [H45 H8].
  auto using scales_exactly_spec.
Qed.

Lemma scaled_sizes_are_exact_witness :
  0 ≤ 256 ≤ 4096 ∧
  int_times 256 (float_lit 45 100) = Ret ((45 * 256) `div` 100) ∧
  int_times 256 (float_lit 8 10) = Ret ((8 * 256) `div` 10) ∧
  int_times 256 (float_lit 4 10) = Ret ((4 * 256) `div` 10).
Proof. split; [lia|]. apply (scaled_sizes_are_exact 256). lia. Defined.

Lemma draws_on_canvas_checked : forallb draws_on_canvas (seqZ 7 1018) = true.
Proof. vm_compute. reflexivity. Qed.

(** X3: for every size from 7 to 1024, on a library that records its
    calls, [create_icon] returns a [size] x [size] image, and every
    ellipse it has drawn (the disc, the ring and the four dots) has the
    corners of its box on the canvas, between 0 and [size - 1]. *)
Theorem ellipses_stay_on_canvas (size : Z) :
  7 ≤ size ≤ 1024 →
  ∃ calls,
    create_icon (pil := recording_pil size false (λ _, None)) size
      = Ret ((size, size), calls) ∧
    ∀ xy fill outline width,
      Ellipse xy fill outline width ∈ calls →
      Forall (λ v, 0 ≤ v ≤ size - 1) xy.
Proof.
  intros Hsize.
  assert (Hok := in_seqZ_forallb _ 7 1018 size draws_on_canvas_checked ltac:(lia)).
  unfold draws_on_canvas in Hok.
  destruct (create_icon size) as [[dims calls]|e]; [|done].
  apply andb_prop in Hok as [Hdims Hcalls].
  apply bool_decide_eq_true in Hdims. simpl in Hdims. subst dims.
  exists calls. split; [done|].
  intros xy fill outline width Hin.
  rewrite forallb_forall in Hcalls.
  apply list_elem_of_In, Hcalls in Hin. simpl in Hin.
  apply Forall_forall. intros v Hv.
  rewrite forallb_forall in Hin. apply list_elem_of_In, Hin in Hv. lia.
Qed.

Lemma ellipses_stay_on_canvas_witness :
  7 ≤ 16 ≤ 1024 ∧
  ∃ calls,
    create_icon (pil := recording_pil 16 false (λ _, None)) 16
      = Ret ((16, 16), calls) ∧
    ∀ xy fill outline width,
      Ellipse xy fill outline width ∈ calls →
      Forall (λ v, 0 ≤ v ≤ 16 - 1) xy.
Proof. split; [lia|]. apply (ellipses_stay_on_canvas 16). lia. Defined.

(** *** The files of [main] *)

Lemma app_length_string (s t : string) :
  String.length (s +:+ t) = (String.length s + String.length t)%nat.
Proof.
  induction s as [|c s IH]; [done|].
  change (S (String.length (s +:+ t)) = S (String.length s + String.length t)).
  by rewrite IH.
Qed.

Lemma app_inj_suffix (s t x : string) : s +:+ x = t +:+ x → s = t.
Proof.
  revert t. induction s as [|c s IH]; intros [|d t] Heq.
  - done.
  - apply (f_equal String.length) in Heq.
    rewrite !app_length_string in Heq. cbn in Heq. lia.
  - apply (f_equal String.length) in Heq.
    rewrite !app_length_string in Heq. cbn in Heq. lia.
  - cbn in Heq. injection Heq as -> Heq. f_equal. by apply IH.
Qed.

Lemma png_name_inj (a b : Z) : png_name a = png_name b → a = b.
Proof.
  unfold png_name. intros Heq.
  apply app_inj_prefix, app_inj_suffix in Heq.
  by apply (inj pretty).
Qed.

Lemma png_path_inj (d : string) (a b : Z) :
  path_join d (png_name a) = path_join d (png_name b) → a = b.
Proof.
  intros Heq. apply png_name_inj.
  by apply (path_join_relative_inj d); [apply png_name_relative..|].
Qed.

Lemma png_path_is_not_icon_png (d : string) (size : Z) :
  path_join d (png_name size) ≠ path_join d "icon.png".
Proof.
  intros Heq. apply path_join_relative_inj in Heq; [|reflexivity..].
  unfold png_name in Heq. cbn in Heq. discriminate.
Qed.

(** X4: the ten paths [main] saves to are pairwise different, for any
    directory: no icon is saved over another. *)
Theorem targets_are_distinct (assets_dir : string) : NoDup (targets assets_dir).
Proof.
  unfold targets. apply NoDup_app. split; [|split].
  - apply NoDup_fmap_2_strong.
    + intros a b _ _. apply png_path_inj.
    + unfold sizes. compute_done.
  - intros p [size [-> _]]%list_elem_of_fmap Hin.
    apply elem_of_cons in Hin as [Heq | Hin].
    + by apply png_path_is_not_icon_png in Heq.
    + apply list_elem_of_singleton in Hin. by apply png_path_is_not_ico_path in Hin.
  - apply NoDup_cons. split; [|apply NoDup_singleton].
    intros Hin%list_elem_of_singleton. by apply icon_png_is_not_ico_path in Hin.
Qed.

Section Files.
Context {pil : PIL} {term : Terminal} (assets_dir : string).

Hypothesis save_writes_its_path_only :
  ∀ img path fmt sz w r w',
    Image_save img path fmt sz w = (r, w') →
    ∀ p, p ≠ path → files w' !! p = files w !! p.

Lemma save_writes_only (ps : list string) img path fmt sz :
  path ∈ ps → writes_only ps (Image_save img path fmt sz).
Proof.
  intros Hin w r w' Hrun p Hp.
  apply (save_writes_its_path_only _ _ _ _ _ _ _ Hrun). by intros ->.
Qed.

Lemma png_path_in_targets (size : Z) :
  size ∈ sizes → path_join assets_dir (png_name size) ∈ targets assets_dir.
Proof.
  intros Hin. unfold targets. apply elem_of_app. left.
  apply list_elem_of_fmap. by exists size.
Qed.

Lemma png_export_writes_only :
  writes_only (targets assets_dir) (png_export assets_dir).
Proof.
  unfold png_export.
  apply writes_only_bind; [apply writes_only_print | intros _].
  apply writes_only_bind; [|intros _].
  { apply writes_only_for_each. intros size Hsize.
    apply writes_only_bind; [apply writes_only_lift | intros img].
    apply writes_only_bind; [|intros _; apply writes_only_print].
    by apply save_writes_only, png_path_in_targets. }
  apply writes_only_bind; [apply writes_only_lift | intros img].
  apply writes_only_bind; [|intros _; apply writes_only_print].
  apply save_writes_only. unfold targets. set_solver.
Qed.

Lemma ico_export_writes_only :
  writes_only (targets assets_dir) (ico_export assets_dir).
Proof.
  unfold ico_export.
  apply writes_only_bind; [apply writes_only_lift | intros imgs].
  apply writes_only_bind; [apply writes_only_lift | intros img0].
  apply writes_only_bind; [|intros _; apply writes_only_print].
  apply save_writes_only. unfold targets. set_solver.
Qed.

Lemma main_writes_only : writes_only (targets assets_dir) (main assets_dir).
Proof.
  unfold main.
  apply writes_only_bind; [apply png_export_writes_only | intros _].
  apply writes_only_bind; [|intros _].
  { apply writes_only_try_except; [apply ico_export_writes_only|].
    intros e. apply writes_only_print. }
  apply writes_only_bind; [apply writes_only_print | intros _].
  apply writes_only_print.
Qed.

(** X5: however the module body ends (normally, or by an exception at
    any point), every file other than the ten icon files is as it was
    before; this holds for a library whose [save] writes to the path it
    is given only. *)
Theorem script_changes_only_the_icon_files (name : string) (w w' : world)
    (r : outcome unit) :
  module_body assets_dir name w = (r, w') →
  ∀ p, p ∉ targets assets_dir → files w' !! p = files w !! p.
Proof.
  revert w r w'. change (writes_only (targets assets_dir) (module_body assets_dir name)).
  unfold module_body. apply writes_only_try_except.
  - apply writes_only_bind; [apply writes_only_import | intros _].
    apply writes_only_bind; [apply writes_only_import | intros _].
    destruct (String.eqb name "__main__");
      [apply main_writes_only | apply writes_only_mret].
  - intros e. apply writes_only_bind; [|intros _]; apply writes_only_print.
Qed.

End Files.

Lemma script_changes_only_the_icon_files_witness :
  let w := with_readme in
  let run := script (pil := Demo.demo_pil) (term := Demo.utf8) Demo.assets w in
  ("/repo/README.md" ∉ targets Demo.assets) ∧
  files run.2 !! "/repo/README.md" = files w !! "/repo/README.md".
Proof.
  intros w run.
  assert (Hp : "/repo/README.md" ∉ targets Demo.assets) by compute_done.
  assert (Hrun : module_body (pil := Demo.demo_pil) (term := Demo.utf8)
                   Demo.assets "__main__" w
                 = (run.1, run.2)) by (vm_compute; reflexivity).
  split; [exact Hp|].
  exact (script_changes_only_the_icon_files (pil := Demo.demo_pil)
           (term := Demo.utf8) Demo.assets
           demo_save_writes_its_path_only "__main__" w run.2 run.1 Hrun
           "/repo/README.md" Hp).
Defined.

(** *** What [main] prints and when it raises *)

Lemma run_lift {A} (o : outcome A) (w : world) : lift o w = (o, w).
Proof. reflexivity. Qed.

Lemma for_fold_step {A S} (x : A) (l : list A) (s s' : S)
    (body : S → A → outcome S) :
  body s x = Ret s' → for_fold (x :: l) s body = for_fold l s' body.
Proof. intros Hx. cbn [for_fold]. unfold mbind, outcome_bind. by rewrite Hx. Qed.

Section Report.
Context {pil : PIL} {term : Terminal} (assets_dir : string).

Hypothesis stdout_encodes_opening_line :
  can_encode stdout_encoding "🎨 生成 MingLog 图标..." = true.
Hypothesis drawing_succeeds :
  ∀ size, size ∈ sizes → ∃ img, create_icon size = Ret img.
Hypothesis saving_succeeds :
  ∀ img path fmt sz w, ∃ w',
    Image_save img path fmt sz w = (Ret tt, w') ∧ stdout w' = stdout w.

Lemma stdout_is_unicode : stdout_encoding = Unicode.
Proof. by apply opening_line_needs_unicode. Qed.

Lemma png_loop_report (l : list Z) (w : world) :
  (∀ size, size ∈ l → size ∈ sizes) →
  ∃ w',
    for_each l (λ size,
      img ← lift (create_icon size);
      let filename := png_name size in
      let filepath := path_join assets_dir filename in
      _ ← Image_save img filepath "PNG" None;
      print ("✅ 已生成: " +:+ filename)) w = (Ret tt, w') ∧
    stdout w' = stdout w ++ ((λ size, "✅ 已生成: " +:+ png_name size) <$> l).
Proof.
  revert w. induction l as [|size l IH]; intros w Hl.
  - exists w. by rewrite app_nil_r.
  - destruct (drawing_succeeds size) as [img Himg]; [apply Hl; set_solver|].
    destruct (saving_succeeds img (path_join assets_dir (png_name size)) "PNG" None w)
      as (w1 & Hsave & Hout1).
    destruct (IH (set_stdout (λ out, out ++ ["✅ 已生成: " +:+ png_name size]) w1))
      as (w2 & Hrest & Hout2); [intros s Hs; apply Hl; set_solver|].
    exists w2. split.
    + cbn [for_each]. erewrite run_bind_ret; [exact Hrest|].
      erewrite run_bind_ret by (rewrite run_lift, Himg; reflexivity).
      cbv zeta. erewrite run_bind_ret by exact Hsave.
      apply run_print_unicode, stdout_is_unicode.
    + rewrite Hout2. simpl. rewrite Hout1, <- app_assoc. done.
Qed.

Lemma ico_images_drawn (l : list (Z * Z)) (acc : list image) :
  (∀ x, x ∈ l → x.1 ∈ sizes) →
  ∃ imgs,
    for_fold l acc (λ ico_images '(size, _),
      img ← create_icon size; Ret (ico_images ++ [img])) = Ret (acc ++ imgs) ∧
    length imgs = length l.
Proof.
  revert acc. induction l as [|[size h] l IH]; intros acc Hl.
  - exists []. by rewrite app_nil_r.
  - destruct (drawing_succeeds size) as [img Himg]; [apply (Hl (size, h)); set_solver|].
    destruct (IH (acc ++ [img])) as (imgs & Hrest & Hlen);
      [intros x Hx; apply Hl; set_solver|].
    exists (img :: imgs). split; [|simpl; by rewrite Hlen].
    rewrite (for_fold_step _ _ _ (acc ++ [img])).
    + by rewrite Hrest, <- app_assoc.
    + cbv beta iota. unfold mbind, outcome_bind. by rewrite Himg.
Qed.

(** X6: when the standard output can encode the opening line, and every
    drawing call and every [save] succeeds ([save] printing nothing
    itself), [main] returns normally and prints, in this order: the
    opening line, one line per PNG size, the lines for [icon.png] and
    [icon.ico], and the two closing lines. *)
Theorem main_reports_every_icon (w : world) :
  ∃ w',
    main assets_dir w = (Ret tt, w') ∧
    stdout w' = stdout w
      ++ ["🎨 生成 MingLog 图标..."]
      ++ ((λ size, "✅ 已生成: " +:+ png_name size) <$> sizes)
      ++ ["✅ 已生成: icon.png"; "✅ 已生成: icon.ico";
          String "010"%char "✨ 图标生成完成！";
          "📝 注意: 这是基础版本的图标，建议使用专业设计工具优化"].
Proof.
  pose proof stdout_is_unicode as Hu.
  destruct (png_loop_report sizes
              (set_stdout (λ out, out ++ ["🎨 生成 MingLog 图标..."]) w))
    as (w1 & Hloop & Hout1); [done|].
  destruct (drawing_succeeds 256) as [main_icon Hicon]; [compute_done|].
  destruct (saving_succeeds main_icon (path_join assets_dir "icon.png") "PNG" None w1)
    as (w2 & Hsave & Hout2).
  destruct (ico_images_drawn ico_sizes []) as (imgs & Himgs & Hlen).
  { intros x Hx. unfold ico_sizes in Hx.
    repeat (apply elem_of_cons in Hx as [-> | Hx]; [compute_done|]).
    by apply elem_of_nil in Hx. }
  destruct imgs as [|img0 imgs]; [discriminate Hlen|].
  destruct (saving_succeeds img0 (ico_path assets_dir) "ICO" (Some ico_sizes)
              (set_stdout (λ out, out ++ ["✅ 已生成: icon.png"]) w2))
    as (w3 & Hico & Hout3).
  assert (Hpng : png_export assets_dir w
                 = (Ret tt, set_stdout (λ out, out ++ ["✅ 已生成: icon.png"]) w2)).
  { unfold png_export.
    erewrite run_bind_ret by by apply run_print_unicode.
    erewrite run_bind_ret by exact Hloop.
    erewrite run_bind_ret by (rewrite run_lift, Hicon; reflexivity).
    erewrite run_bind_ret by exact Hsave.
    by apply run_print_unicode. }
  assert (Hexp : ico_export assets_dir
                   (set_stdout (λ out, out ++ ["✅ 已生成: icon.png"]) w2)
                 = (Ret tt, set_stdout (λ out, out ++ ["✅ 已生成: icon.ico"]) w3)).
  { unfold ico_export.
    erewrite run_bind_ret by (rewrite run_lift, Himgs; reflexivity).
    erewrite run_bind_ret by (rewrite run_lift; reflexivity).
    erewrite run_bind_ret by exact Hico.
    by apply run_print_unicode. }
  eexists. split.
  - unfold main.
    erewrite run_bind_ret by exact Hpng.
    erewrite run_bind_ret by (unfold try_except; rewrite Hexp; reflexivity).
    erewrite run_bind_ret by by apply run_print_unicode.
    by apply run_print_unicode.
  - simpl. rewrite Hout3. simpl. rewrite Hout2, Hout1. simpl.
    by rewrite <- !app_assoc.
Qed.

End Report.

Lemma recording_drawing_succeeds (truetype : bool) (save_error : string → option exn) :
  ∀ size, size ∈ sizes →
    ∃ img, create_icon (pil := recording_pil 512 truetype save_error) size = Ret img.
Proof.
  intros size Hin. unfold sizes in Hin.
  repeat (apply elem_of_cons in Hin as [-> | Hin];
          [destruct truetype; eexists; vm_compute; reflexivity|]).
  by apply elem_of_nil in Hin.
Qed.

Lemma recording_saving_succeeds (limit : Z) (truetype : bool) :
  ∀ img path fmt sz w, ∃ w',
    Image_save (PIL := recording_pil limit truetype (λ _, None)) img path fmt sz w
      = (Ret tt, w') ∧ stdout w' = stdout w.
Proof. intros img path fmt sz w. eexists. split; reflexivity. Qed.

Lemma main_reports_every_icon_witness :
  can_encode (stdout_encoding (Terminal := Demo.utf8)) "🎨 生成 MingLog 图标..." = true ∧
  ∃ w',
    main (pil := recording_pil 512 false (λ _, None)) (term := Demo.utf8)
      Demo.assets Demo.with_pillow
      = (Ret tt, w') ∧
    stdout w' = stdout Demo.with_pillow
      ++ ["🎨 生成 MingLog 图标..."]
      ++ ((λ size, "✅ 已生成: " +:+ png_name size) <$> sizes)
      ++ ["✅ 已生成: icon.png"; "✅ 已生成: icon.ico";
          String "010"%char "✨ 图标生成完成！";
          "📝 注意: 这是基础版本的图标，建议使用专业设计工具优化"].
Proof.
  split; [reflexivity|].
  exact (main_reports_every_icon (pil := recording_pil 512 false (λ _, None))
           (term := Demo.utf8) Demo.assets eq_refl
           (recording_drawing_succeeds false (λ _, None))
           (recording_saving_succeeds 512 false) Demo.with_pillow).
Defined.

Section Raising.
Context {pil : PIL} {term : Terminal} (assets_dir : string).

(** X7: [main] raises in two cases only, and then with the same exception
    and in the same state: when its PNG part raises, or when the PNG part
    has returned and ICO export raises an exception that is not an
    [Exception] ([KeyboardInterrupt], [SystemExit], [GeneratorExit]). No
    [Exception] raised by ICO export, and no [print] after the PNG part,
    makes [main] fail. *)
Theorem main_raises_from_png_part_or_uncaught (w w' : world) (e : exn) :
  main assets_dir w = (Raise e, w') ↔
  png_export assets_dir w = (Raise e, w') ∨
  ∃ w1, png_export assets_dir w = (Ret tt, w1) ∧
        ico_export assets_dir w1 = (Raise e, w') ∧
        isinstance e Exception = false.
Proof.
  unfold main.
  destruct (png_export assets_dir w) as [[[]|e0] w0] eqn:Hpng.
  - pose proof (png_export_returned_on_unicode _ _ _ Hpng) as Hu.
    erewrite run_bind_ret by exact Hpng.
    destruct (ico_export assets_dir w0) as [[[]|e1] w1] eqn:Hico.
    + erewrite run_bind_ret by (unfold try_except; rewrite Hico; reflexivity).
      erewrite run_bind_ret by by apply run_print_unicode.
      rewrite run_print_unicode by done.
      split; [done|]. intros [Hraise | (w2 & [= <-] & Hico2 & _)]; [done|].
      rewrite Hico in Hico2. discriminate.
    + destruct (isinstance e1 Exception) eqn:He1.
      * erewrite run_bind_ret
          by (unfold try_except, ico_failed; rewrite Hico, He1;
              by apply run_print_unicode).
        erewrite run_bind_ret by by apply run_print_unicode.
        rewrite run_print_unicode by done.
        split; [done|]. intros [Hraise | (w2 & [= <-] & Hico2 & He)]; [done|].
        rewrite Hico in Hico2. injection Hico2 as <- <-. congruence.
      * erewrite run_bind_raise by (unfold try_except; by rewrite Hico, He1).
        split.
        -- intros [= <- <-]. right. by exists w0.
        -- intros [Hraise | (w2 & [= <-] & Hico2 & _)]; [done|].
           by rewrite Hico in Hico2.
  - rewrite (run_bind_raise _ _ _ _ _ Hpng). split; [by left|].
    by intros [Hraise | (w2 & Hret & _)].
Qed.

Lemma run_import (name : string) (w : world) :
  name ∈ modules w → import name w = (Ret tt, w).
Proof. intros Hin. unfold import. by destruct (decide (name ∈ modules w)). Qed.

(** When [main] ends with an [ImportError], its opening line has been
    printed, so the standard output encodes all of Unicode. *)
Lemma import_error_from_main_on_unicode (w w' : world) (e : exn) :
  main assets_dir w = (Raise e, w') → isinstance e ImportError = true →
  stdout_encoding = Unicode.
Proof.
  intros Hmain He.
  destruct (can_encode stdout_encoding "🎨 生成 MingLog 图标...") eqn:Hs;
    [by apply opening_line_needs_unicode|].
  assert (Hpng : png_export assets_dir w = (Raise encode_error, w))
    by (unfold png_export; by erewrite run_bind_raise by by apply run_print_fail).
  unfold main in Hmain. rewrite (run_bind_raise _ _ _ _ _ Hpng) in Hmain.
  injection Hmain as <- _. discriminate He.
Qed.

(** X8: with PIL and os importable, an exception that leaves [main] ends
    the script in one of two ways. An [ImportError] (or a subclass) is
    taken for a missing Pillow: the two lines of the module-level handler
    are printed and the script ends normally. Any other exception leaves
    the script uncaught. *)
Theorem import_error_in_main_reads_as_missing_pillow (w w' : world) (e : exn) :
  "PIL" ∈ modules w → "os" ∈ modules w →
  main assets_dir w = (Raise e, w') →
  script assets_dir w =
    if isinstance e ImportError
    then (Ret tt, set_stdout (λ out, out ++ ["❌ 需要安装 Pillow 库: pip install Pillow"; "💡 或者手动创建图标文件"]) w')
    else (Raise e, w').
Proof.
  intros HPIL Hos Hmain. unfold script, module_body, try_except.
  erewrite run_bind_ret by by apply run_import.
  erewrite run_bind_ret by by apply run_import.
  change (String.eqb "__main__" "__main__") with true. cbv iota.
  rewrite Hmain. destruct (isinstance e ImportError) eqn:He; [|done].
  pose proof (import_error_from_main_on_unicode _ _ _ Hmain He) as Hu.
  erewrite run_bind_ret by by apply run_print_unicode.
  rewrite run_print_unicode by done.
  unfold set_stdout. simpl. by rewrite <- app_assoc.
Qed.

(** If drawing any one of the ICO sizes raises, so does the loop that
    collects the images. *)
Lemma ico_images_loop_raises (l : list (Z * Z)) (acc : list image) :
  (∃ x, x ∈ l ∧ ∃ e, create_icon x.1 = Raise e) →
  ∃ e',
    for_fold l acc (λ ico_images '(size, _),
      img ← create_icon size; Ret (ico_images ++ [img])) = Raise e'.
Proof.
  revert acc. induction l as [|[size h] l IH]; intros acc (x & Hin & e & He).
  - by apply elem_of_nil in Hin.
  - destruct (create_icon size) as [img|e0] eqn:Hdraw.
    + rewrite (for_fold_step _ _ _ (acc ++ [img]))
        by (cbv beta iota; unfold mbind, outcome_bind; by rewrite Hdraw).
      apply IH. apply elem_of_cons in Hin as [-> | Hin]; [|by eauto].
      simpl in He. congruence.
    + exists e0. cbn [for_fold]. cbv beta iota.
      unfold mbind, outcome_bind. by rewrite Hdraw.
Qed.

(** X9: ICO export draws all its images before it saves anything: if
    drawing any of the seven ICO sizes raises, ICO export raises with the
    world exactly as it was; [icon.ico] is neither created nor
    truncated. *)
Theorem ico_export_draws_before_writing (w : world) (size : Z) (e : exn) :
  size ∈ ico_sizes.*1 → create_icon size = Raise e →
  ∃ e', ico_export assets_dir w = (Raise e', w).
Proof.
  intros [x [-> Hx]]%list_elem_of_fmap Hdraw.
  destruct (ico_images_loop_raises ico_sizes []) as [e' He']; [by eauto|].
  exists e'. unfold ico_export.
  by erewrite run_bind_raise by (rewrite run_lift, He'; reflexivity).
Qed.

End Raising.

Lemma import_error_in_main_reads_as_missing_pillow_witness :
  let w := Demo.with_pillow in
  let e := mk_exn ModuleNotFoundError "No module named 'PIL.PngImagePlugin'" in
  let w' := (main (pil := png_plugin_missing) (term := Demo.utf8) Demo.assets w).2 in
  ("PIL" ∈ modules w) ∧ ("os" ∈ modules w) ∧
  main (pil := png_plugin_missing) (term := Demo.utf8) Demo.assets w = (Raise e, w') ∧
  script (pil := png_plugin_missing) (term := Demo.utf8) Demo.assets w =
    (Ret tt, set_stdout (λ out, out ++ ["❌ 需要安装 Pillow 库: pip install Pillow"; "💡 或者手动创建图标文件"]) w').
Proof.
  intros w e w'.
  assert (HPIL : "PIL" ∈ modules w) by compute_done.
  assert (Hos : "os" ∈ modules w) by compute_done.
  assert (Hmain : main (pil := png_plugin_missing) (term := Demo.utf8) Demo.assets w
                  = (Raise e, w'))
    by (vm_compute; reflexivity).
  repeat (split; [assumption|]).
  exact (import_error_in_main_reads_as_missing_pillow
           (pil := png_plugin_missing) (term := Demo.utf8) Demo.assets
           w w' e HPIL Hos Hmain).
Defined.

Lemma ico_export_draws_before_writing_witness :
  (64 ∈ ico_sizes.*1) ∧
  create_icon (pil := small_memory) 64
    = Raise (mk_exn MemoryError "out of memory") ∧
  ∃ e', ico_export (pil := small_memory) (term := Demo.utf8) Demo.assets with_readme
        = (Raise e', with_readme).
Proof.
  assert (Hin : 64 ∈ ico_sizes.*1) by compute_done.
  assert (Hdraw : create_icon (pil := small_memory) 64
                  = Raise (mk_exn MemoryError "out of memory"))
    by (vm_compute; reflexivity).
  split; [exact Hin|]. split; [exact Hdraw|].
  exact (ico_export_draws_before_writing (pil := small_memory) (term := Demo.utf8)
           Demo.assets with_readme 64 _ Hin Hdraw).
Defined.

End CreateIconsMore.

(** ** More on [create_ico.py] *)

Module CreateIcoMore.
Import Py Struct CreateIco Checks CreateIconsFacts.

Lemma run_open_wb (path : string) fs dn ms out wr :
  dn !! path = None →
  open_wb path (mk_world fs dn ms out wr)
  = (Ret path, mk_world (<[path := []]> fs) dn ms out wr).
Proof. intros Hopen. unfold open_wb. cbn [denied]. by rewrite Hopen. Qed.

Lemma run_write (f : string) (data : list byte) fs dn ms out wr :
  write f data (mk_world fs dn ms out wr)
  = (Ret (Z.of_nat (length data)),
     mk_world (<[f := default [] (fs !! f) ++ data]> fs) dn ms out
       (wr ++ [(f, data)])).
Proof. reflexivity. Qed.

Lemma write_blocks_run (h d b p a : list byte) fs dn ms out wr :
  dn !! ico_path = None →
  write_blocks h d b p a (mk_world fs dn ms out wr)
  = (Ret tt,
     mk_world (<[ico_path := h ++ d ++ b ++ p ++ a]> fs) dn ms out
       (wr ++ [(ico_path, h); (ico_path, d); (ico_path, b);
               (ico_path, p); (ico_path, a)])).
Proof.
  unfold write_blocks. generalize ico_path. intros path Hopen.
  unfold with_open_wb.
  erewrite run_bind_ret by by apply run_open_wb.
  do 5 (erewrite run_bind_ret by apply run_write;
        rewrite lookup_insert_eq, insert_insert_eq; cbn [default]).
  unfold id. rewrite <- !app_assoc. reflexivity.
Qed.

(** X10: when the file can be opened, the [with] block of
    [create_simple_ico] returns normally and replaces the content of
    [icons/icon.ico], whatever it was, by the five blocks in the order
    header, directory entry, info header, pixel data, AND mask; these are
    also exactly the bytes it emits. No other file changes and nothing is
    printed. *)
Theorem write_blocks_replaces_the_file (h d b p a : list byte) (w : world) :
  denied w !! ico_path = None →
  ∃ w',
    write_blocks h d b p a w = (Ret tt, w') ∧
    files w' = <[ico_path := h ++ d ++ b ++ p ++ a]> (files w) ∧
    stdout w' = stdout w ∧
    emitted (write_blocks h d b p a) w = h ++ d ++ b ++ p ++ a.
Proof.
  destruct w as [fs dn ms out wr]. cbn [denied files stdout]. intros Hopen.
  eexists. split; [by apply write_blocks_run|].
  split; [done|]. split; [done|].
  unfold emitted. rewrite write_blocks_run by done. cbn [snd written].
  rewrite drop_app_length. cbn. by rewrite app_nil_r.
Qed.

Lemma write_blocks_replaces_the_file_witness :
  denied with_old_icon !! ico_path = None ∧
  ∃ w',
    write_blocks [x01] [x02] [x03] [x04] [x05] with_old_icon = (Ret tt, w') ∧
    files w' = <[ico_path := [x01] ++ [x02] ++ [x03] ++ [x04] ++ [x05]]>
                 (files with_old_icon) ∧
    stdout w' = stdout with_old_icon ∧
    emitted (write_blocks [x01] [x02] [x03] [x04] [x05]) with_old_icon
      = [x01] ++ [x02] ++ [x03] ++ [x04] ++ [x05].
Proof.
  assert (Hopen : denied with_old_icon !! ico_path = None) by reflexivity.
  split; [exact Hopen|].
  exact (write_blocks_replaces_the_file [x01] [x02] [x03] [x04] [x05]
           with_old_icon Hopen).
Defined.

End CreateIcoMore.

(** ** More on [struct.pack] *)

Module StructMore.
Import Py Struct StructFacts CreateIco.

Lemma in_range_unsigned (n : nat) (v : Z) :
  in_range n false v = true → 0 ≤ v < 2 ^ (8 * Z.of_nat n).
Proof. unfold in_range. intros [H1 H2]%andb_prop. lia. Qed.

Lemma pack_items_field (cs : list (ascii * nat * bool)) (vs : list Z)
    (b : list byte) (i : nat) (c : ascii * nat * bool) (v : Z) :
  pack_items cs vs = Ret b →
  cs !! i = Some c → vs !! i = Some v → c.2 = false →
  field (calcsize_codes (take i cs)) c.1.2 b = v.
Proof.
  revert vs b i. induction cs as [|c0 cs IH]; intros [|v0 vs] b i Hp Hc Hv Hu;
    try done.
  simpl in Hp. unfold mbind, outcome_bind, pack_item in Hp.
  destruct (in_range c0.1.2 c0.2 v0) eqn:Hrange; [|discriminate].
  destruct (pack_items cs vs) as [bs|] eqn:Hbs; [|discriminate].
  injection Hp as <-. unfold field. destruct i as [|i]; simpl in *.
  - injection Hc as ->. injection Hv as ->. rewrite Hu in Hrange.
    rewrite drop_0, take_app_length' by by rewrite le_bytes_length.
    by apply le_value_le_bytes, in_range_unsigned.
  - rewrite drop_app_add' by by rewrite le_bytes_length.
    by apply (IH vs).
Qed.

(** X11: what [struct.pack] writes can be read back. When a [<] format
    packs its values, every unsigned field holds, as a little-endian
    number at the offset given by the sizes of the fields before it, the
    value that was passed for it. *)
Theorem pack_field_round_trip (fmt : string) (cs : list (ascii * nat * bool))
    (args : list Z) (b : list byte) (i : nat) (c : ascii * nat * bool) (v : Z) :
  parse_format fmt = Ret cs → pack fmt args = Ret b →
  cs !! i = Some c → args !! i = Some v → c.2 = false →
  field (calcsize_codes (take i cs)) c.1.2 b = v.
Proof.
  intros Hfmt Hpack. unfold pack in Hpack. rewrite Hfmt in Hpack. simpl in Hpack.
  destruct (decide (length args = length cs)); [|discriminate].
  by apply pack_items_field.
Qed.

Lemma pack_field_round_trip_witness :
  ∃ cs b,
    parse_format "<BBBBHHII" = Ret cs ∧ pack "<BBBBHHII" ico_dir_args = Ret b ∧
    cs !! 6%nat = Some ("I"%char, 4%nat, false) ∧
    ico_dir_args !! 6%nat = Some 1064 ∧
    field (calcsize_codes (take 6 cs)) 4 b = 1064.
Proof.
  do 2 eexists. split; [reflexivity|]. split; [reflexivity|].
  split; [reflexivity|]. split; [reflexivity|].
  exact (pack_field_round_trip "<BBBBHHII" _ ico_dir_args _ 6
           ("I"%char, 4%nat, false) 1064
           eq_refl eq_refl eq_refl eq_refl eq_refl).
Defined.

(** X12: for a [<] format made of integer codes (the formats of the
    script), the length of what [struct.pack] returns depends on the
    format only: it is the sum of the sizes of the fields, whatever the
    values. *)
Theorem pack_length (fmt : string) (cs : list (ascii * nat * bool))
    (args : list Z) (b : list byte) :
  parse_format fmt = Ret cs → pack fmt args = Ret b →
  length b = calcsize_codes cs.
Proof.
  intros Hfmt Hpack. unfold pack in Hpack. rewrite Hfmt in Hpack. simpl in Hpack.
  destruct (decide (length args = length cs)); [|discriminate].
  by apply (pack_items_length cs args).
Qed.

Lemma pack_length_witness :
  ∃ cs b,
    parse_format "<HHH" = Ret cs ∧ pack "<HHH" [0; 1; 1] = Ret b ∧
    length b = calcsize_codes cs.
Proof.
  do 2 eexists. split; [reflexivity|]. split; [reflexivity|].
  exact (pack_length "<HHH" _ [0; 1; 1] _ eq_refl eq_refl).
Defined.

End StructMore.
